(** * docs/sphinx/conf.py: the Sphinx configuration module

    The module is a straight-line Python script: two imports, a series of
    assignments of literals to module-level names, and the definition of
    the [setup] hook.  It is embedded as a program in a state-and-exception
    monad over the part of the interpreter the script can reach: the
    namespace the file is executed in, the import cache and what loading
    a module brings into it, the module search path, the objects handed in
    from outside, the identity the next function object gets, and the
    record of what the script did. *)

From stdpp Require Import gmap strings list fin_maps.

Open Scope string_scope.
Open Scope list_scope.

Set Warnings "-register-all".

(** ** Python values *)

(** Dictionaries of the script only have string keys; equality of
    dictionaries ignores insertion order, as [==] on [dict] does.  A
    function object has an identity besides its code: two function objects
    are equal only if they are the same object. *)
Inductive value : Type :=
| VNone
| VBool (b : bool)
| VInt (n : Z)
| VStr (s : string)
| VList (items : list value)
| VTuple (items : list value)
| VDict (entries : gmap string value)
| VModule (name : string)
| VFunction (id : nat) (name : string) (params : list string)
| VRef (loc : nat).

(** A dict display [{k1: v1, ..., kn: vn}] inserts its entries from left
    to right, a later key replacing an earlier equal one. *)
Definition dict_display (kvs : list (string * value)) : gmap string value :=
  fold_left (fun m kv => <[kv.1 := kv.2]> m) kvs ∅.

(** ** The interpreter state *)

Inductive exn : Type :=
| AttributeError (attr : string)
| TypeError.

(** An object supplied from outside the script, such as the application
    handle, is known by the methods it answers to.  A method is code of
    its owner: given the arguments it returns a value or raises. *)
Record pyobject : Type := PyObject {
  obj_methods : gmap string (list value → exn + value)
}.

(** What the script does that can be seen from outside the expression
    being evaluated: binding a name of its namespace, and calling a method
    of an outside object. *)
Inductive event : Type :=
| EvBind (name : string) (v : value)
| EvCall (loc : nat) (meth : string) (args : list value).

Record interp : Type := Interp {
  globals : gmap string value;      (* namespace the file is executed in *)
  sys_modules : gset string;        (* names in the import cache *)
  sys_path : list string;           (* module search path *)
  objects : gmap nat pyobject;      (* objects owned by the caller *)
  trace : list event;               (* oldest event first *)
  loader : string → gset string;    (* modules that loading a module caches besides it *)
  next_id : nat                     (* identity of the next function object *)
}.

Definition set_globals (f : gmap string value → gmap string value) (st : interp) : interp :=
  Interp (f (globals st)) (sys_modules st) (sys_path st) (objects st) (trace st)
         (loader st) (next_id st).

Definition set_sys_modules (f : gset string → gset string) (st : interp) : interp :=
  Interp (globals st) (f (sys_modules st)) (sys_path st) (objects st) (trace st)
         (loader st) (next_id st).

Definition log (e : event) (st : interp) : interp :=
  Interp (globals st) (sys_modules st) (sys_path st) (objects st) (trace st ++ [e])
         (loader st) (next_id st).

Definition set_next_id (f : nat → nat) (st : interp) : interp :=
  Interp (globals st) (sys_modules st) (sys_path st) (objects st) (trace st)
         (loader st) (f (next_id st)).

(** ** The monad: state that survives an exception *)

Definition M (A : Type) : Type := interp → (exn + A) * interp.

Definition ret {A} (a : A) : M A := λ st, (inr a, st).

Definition raise {A} (e : exn) : M A := λ st, (inl e, st).

Definition bind {A B} (m : M A) (k : A → M B) : M B := λ st,
  match m st with
  | (inr a, st') => k a st'
  | (inl e, st') => (inl e, st')
  end.

Declare Scope py_scope.
Delimit Scope py_scope with py.
Notation "m ;; k" := (bind m (λ _, k))
  (at level 100, k at level 200, right associativity) : py_scope.

(** Outcome and final state of a run. *)
Definition outcome {A} (m : M A) (st : interp) : exn + A := (m st).1.
Definition final {A} (m : M A) (st : interp) : interp := (m st).2.

(** ** Statements and expressions of the script *)

(** [name = v], at module level. *)
Definition assign (name : string) (v : value) : M unit := λ st,
  (inr tt, log (EvBind name v) (set_globals (insert name v) st)).

(** The import cache after [import name]: a cached module is handed out
    and the cache stays as it is; a module that is not cached is loaded,
    which caches it together with the modules its own code imports. *)
Definition cache_import (name : string) (brought : gset string)
    (cache : gset string) : gset string :=
  if decide (name ∈ cache) then cache else {[name]} ∪ brought ∪ cache.

(** [import name].  Either way the name is bound to the module.  The
    script imports standard-library modules only, which are always
    found. *)
Definition import_ (name : string) : M unit := λ st,
  assign name (VModule name)
    (set_sys_modules (cache_import name (loader st name)) st).

(** [def name(params): ...] makes a new function object and binds the
    name to it. *)
Definition def_ (name : string) (params : list string) : M unit := λ st,
  assign name (VFunction (next_id st) name params) (set_next_id S st).

(** [obj.meth(args)].  Values built by the script itself (strings, lists,
    dicts, ...) have none of the attributes the script asks for, and
    neither has a reference that names no object. *)
Definition call_method (obj : value) (meth : string) (args : list value) : M value := λ st,
  match obj with
  | VRef l =>
      match objects st !! l with
      | Some o =>
          match obj_methods o !! meth with
          | Some f => (f args, log (EvCall l meth args) st)
          | None => (inl (AttributeError meth), st)
          end
      | None => (inl (AttributeError meth), st)
      end
  | _ => (inl (AttributeError meth), st)
  end.

Notation "name ::= v" := (assign name v) (at level 90, no associativity) : py_scope.

Open Scope py_scope.

(** ** The script *)

(** [def setup(app): app.add_css_file('custom.css')].  The value of the
    call is dropped and the body ends without [return]. *)
Definition setup (app : value) : M value :=
  call_method app "add_css_file" [VStr "custom.css"];;
  ret VNone.

Definition conf_py : M unit :=
  import_ "os";;
  import_ "sys";;
  "project" ::= VStr "Nix Model Repo";;
  "copyright" ::= VStr "2024, Nix Model Repo Contributors";;
  "author" ::= VStr "Nix Model Repo Contributors";;
  "release" ::= VStr "0.1.0";;
  "version" ::= VStr "0.1";;
  "extensions" ::= VList [
    VStr "sphinx.ext.autodoc";
    VStr "sphinx.ext.viewcode";
    VStr "sphinx.ext.intersphinx";
    VStr "sphinx.ext.todo";
    VStr "sphinx_copybutton";
    VStr "myst_parser"
  ];;
  "templates_path" ::= VList [VStr "_templates"];;
  "exclude_patterns" ::= VList [VStr "_build"; VStr "Thumbs.db"; VStr ".DS_Store"];;
  "source_suffix" ::= VDict (dict_display [
    (".rst", VStr "restructuredtext");
    (".md", VStr "markdown")
  ]);;
  "master_doc" ::= VStr "index";;
  "html_theme" ::= VStr "furo";;
  "html_static_path" ::= VList [VStr "_static"];;
  "html_theme_options" ::= VDict (dict_display [
    ("light_css_variables", VDict (dict_display [
      ("color-brand-primary", VStr "#7C3AED");
      ("color-brand-content", VStr "#7C3AED")
    ]));
    ("dark_css_variables", VDict (dict_display [
      ("color-brand-primary", VStr "#A78BFA");
      ("color-brand-content", VStr "#A78BFA")
    ]));
    ("sidebar_hide_name", VBool false);
    ("navigation_with_keys", VBool true)
  ]);;
  "html_title" ::= VStr "Nix Model Repo";;
  "html_short_title" ::= VStr "nix-model-repo";;
  "intersphinx_mapping" ::= VDict (dict_display [
    ("python", VTuple [VStr "https://docs.python.org/3"; VNone])
  ]);;
  "todo_include_todos" ::= VBool true;;
  "myst_enable_extensions" ::= VList [
    VStr "colon_fence";
    VStr "deflist";
    VStr "fieldlist";
    VStr "tasklist"
  ];;
  "myst_heading_anchors" ::= VInt 3;;
  def_ "setup" ["app"].

(** Calling a function object: the script defines one function. *)
Definition call (f : value) (args : list value) : M value :=
  match f with
  | VFunction _ name params =>
      if decide (length args = length params) then
        match name, args with
        | "setup", [app] => setup app
        | _, _ => raise TypeError
        end
      else raise TypeError
  | _ => raise TypeError
  end.

(** [exec(code, namespace)], the way the documentation builder runs the
    file: when the namespace has no [__builtins__], a reference to the
    namespace of the built-in module is put under that key before the
    code runs. *)
Definition ensure_builtins (g : gmap string value) : gmap string value :=
  match g !! "__builtins__" with
  | Some _ => g
  | None => <["__builtins__" := VModule "builtins"]> g
  end.

Definition exec_ {A} (code : M A) : M A := λ st,
  code (set_globals ensure_builtins st).

(** ** Reading a run *)

(** A fresh interpreter: nothing bound, nothing cached, nothing logged;
    the next function object gets identity [n]. *)
Definition fresh_interp (n : nat) : interp := Interp ∅ ∅ [] ∅ [] (λ _, ∅) n.

Definition empty_interp : interp := fresh_interp 0.

(** The events of evaluating the script when the next function object
    gets identity [n]. *)
Definition conf_events (n : nat) : list event :=
  trace (final conf_py (fresh_interp n)).

(** The names the file binds, in the order of the file: the two imported
    modules, the settings, the hook. *)
Definition module_names : list string :=
  [ "os"; "sys"; "project"; "copyright"; "author"; "release"; "version";
    "extensions"; "templates_path"; "exclude_patterns"; "source_suffix";
    "master_doc"; "html_theme"; "html_static_path"; "html_theme_options";
    "html_title"; "html_short_title"; "intersphinx_mapping";
    "todo_include_todos"; "myst_enable_extensions"; "myst_heading_anchors";
    "setup" ].


Definition apply_event (g : gmap string value) (e : event) : gmap string value :=
  match e with
  | EvBind name v => <[name := v]> g
  | EvCall _ _ _ => g
  end.

(** The namespace after the bindings of [evs], in order. *)
Definition replay (evs : list event) (g : gmap string value) : gmap string value :=
  fold_left apply_event evs g.

(** The namespace the script builds from nothing. *)
Definition conf_namespace (n : nat) : gmap string value :=
  replay (conf_events n) ∅.

Definition is_bind (e : event) : bool :=
  match e with EvBind _ _ => true | EvCall _ _ _ => false end.

Definition bound_names (evs : list event) : list string :=
  omap (λ e, match e with EvBind name _ => Some name | EvCall _ _ _ => None end) evs.


(** ** Types of configuration values *)

Inductive pytype : Type := TStr | TListStr | TMapping.

Definition is_str (v : value) : bool :=
  match v with VStr _ => true | _ => false end.

Definition has_type (v : value) (t : pytype) : bool :=
  match t, v with
  | TStr, VStr _ => true
  | TListStr, VList items => forallb is_str items
  | TMapping, VDict _ => true
  | _, _ => false
  end.

(** The fields the documentation builder relies on, with their types. *)
Definition required_fields : list (string * pytype) :=
  [ ("project", TStr); ("copyright", TStr); ("author", TStr);
    ("version", TStr); ("release", TStr); ("extensions", TListStr);
    ("html_theme", TStr); ("html_theme_options", TMapping);
    ("source_suffix", TMapping); ("intersphinx_mapping", TMapping) ].


(** An application handle: an object of the caller whose [add_css_file]
    method takes a file name and returns. *)
Definition is_application (st : interp) (app : value) : Prop :=
  ∃ l o f, app = VRef l ∧ objects st !! l = Some o ∧
    obj_methods o !! "add_css_file" = Some f ∧
    ∀ fname, ∃ v, f [VStr fname] = inr v.

(** ** Sample interpreters *)

(** An interpreter as the documentation builder has it when it reads the
    script, holding one application object. *)
Definition sphinx_app : pyobject :=
  PyObject {[ "add_css_file" :=
                (λ args, match args with
                         | VStr _ :: _ => inr VNone
                         | _ => inl TypeError
                         end);
              "add_js_file" :=
                (λ args, match args with
                         | VStr _ :: _ => inr VNone
                         | _ => inl TypeError
                         end) ]}.

Definition builder_interp : interp :=
  Interp {[ "__file__" := VStr "conf.py" ]} {[ "sys"; "builtins"; "os" ]}
         ["/usr/lib/python3"] {[ 0 := sphinx_app ]} [] (λ _, ∅) 0.

(** An application whose [add_css_file] hands something back. *)
Definition chatty_app : pyobject :=
  PyObject {[ "add_css_file" := (λ _, inr (VInt 7)) ]}.

Definition chatty_interp : interp :=
  Interp ∅ {[ "sys"; "os" ]} [] {[ 5 := chatty_app ]} [] (λ _, ∅) 0.

(** An application whose [add_css_file] refuses. *)
Definition refusing_app : pyobject :=
  PyObject {[ "add_css_file" := (λ _, inl TypeError) ]}.

Definition refusing_interp : interp :=
  Interp ∅ {[ "sys"; "os" ]} [] {[ 1 := refusing_app ]} [] (λ _, ∅) 0.

(** An interpreter started without its site set-up: [os] is not loaded
    yet, and loading it brings six more modules into the cache. *)
Definition os_brings : gset string :=
  {[ "os.path"; "posixpath"; "genericpath"; "stat"; "_stat";
     "_collections_abc" ]}.

Definition bare_interp : interp :=
  Interp {[ "__file__" := VStr "conf.py" ]} {[ "sys"; "builtins" ]}
         [] ∅ [] (λ name, if decide (name = "os") then os_brings else ∅) 0.

(** ** Vocabulary for the behaviour of the hook *)

(** The method [meth] of [obj] as attribute lookup finds it, if it does. *)
Definition method_of (st : interp) (obj : value) (meth : string)
  : option (list value → exn + value) :=
  match obj with
  | VRef l => o ← objects st !! l; obj_methods o !! meth
  | _ => None
  end.

(** [k] calls of [m] one after the other, as a caller that invokes the
    hook again and again would make them; the result is the list of the
    values the calls returned, first call first. *)
Fixpoint times (k : nat) (m : M value) : M (list value) :=
  match k with
  | 0 => ret []
  | S k' => bind m (λ v, bind (times k' m) (λ vs, ret (v :: vs)))
  end.

(** The one call the hook makes on the object at [l]. *)
Definition css_call (l : nat) : event :=
  EvCall l "add_css_file" [VStr "custom.css"].

(** * Properties *)

Example dict_display_last_wins :
  dict_display [("a", VInt 1); ("a", VInt 2)] !! "a" = Some (VInt 2).
Proof. reflexivity. Qed.

Lemma replay_union evs (m g : gmap string value) :
  replay evs (m ∪ g) = replay evs m ∪ g.
Proof.
  revert m. induction evs as [|e evs IH]; intros m; [done|].
  unfold replay in *. simpl. rewrite <- IH. f_equal.
  destruct e; simpl; [|done]. by rewrite insert_union_l.
Qed.

Lemma replay_fresh evs (g : gmap string value) :
  replay evs g = replay evs ∅ ∪ g.
Proof. by rewrite <- replay_union, (left_id_L ∅ (∪)). Qed.

(** The whole run of the script, from any interpreter state. *)
Lemma conf_py_run st :
  conf_py st =
    (inr tt,
     Interp (replay (conf_events (next_id st)) (globals st))
            (cache_import "sys" (loader st "sys")
               (cache_import "os" (loader st "os") (sys_modules st)))
            (sys_path st) (objects st)
            (trace st ++ conf_events (next_id st))
            (loader st) (S (next_id st))).
Proof.
  cbv [conf_py bind assign import_ def_ log set_globals set_sys_modules
       set_next_id globals sys_modules sys_path objects trace loader next_id].
  f_equal. f_equal.
  rewrite <- !app_assoc. reflexivity.
Qed.

Lemma conf_py_outcome st : outcome conf_py st = inr tt.
Proof. unfold outcome. rewrite conf_py_run. reflexivity. Qed.

Lemma conf_py_globals st :
  globals (final conf_py st) = conf_namespace (next_id st) ∪ globals st.
Proof.
  unfold final. rewrite conf_py_run.
  exact (replay_fresh (conf_events (next_id st)) (globals st)).
Qed.

Lemma conf_py_trace st :
  trace (final conf_py st) = trace st ++ conf_events (next_id st).
Proof. unfold final. rewrite conf_py_run. reflexivity. Qed.



(** A name the script binds has the script's value whatever was there. *)
Lemma conf_lookup st name v :
  conf_namespace (next_id st) !! name = Some v →
  globals (final conf_py st) !! name = Some v.
Proof. intros H. rewrite conf_py_globals. by apply lookup_union_Some_l. Qed.

(** A name the script does not bind keeps what it had. *)
Lemma conf_lookup_other st name :
  conf_namespace (next_id st) !! name = None →
  globals (final conf_py st) !! name = globals st !! name.
Proof. intros H. rewrite conf_py_globals. by apply lookup_union_r. Qed.


(** Replaying events: a name no event binds is left alone, and a name
    bound by a single event ends with the value of that event. *)
Lemma replay_lookup_notin evs (g : gmap string value) name :
  name ∉ bound_names evs → replay evs g !! name = g !! name.
Proof.
  revert g. induction evs as [|e evs IH]; intros g Hnot; [done|].
  change (replay (e :: evs) g) with (replay evs (apply_event g e)).
  destruct e as [k v|]; simpl in *.
  - apply not_elem_of_cons in Hnot as [Hne Hnot].
    rewrite IH by done. by apply lookup_insert_ne.
  - by apply IH.
Qed.



Lemma conf_events_binds n : forallb is_bind (conf_events n) = true.
Proof. reflexivity. Qed.


(** The run of [setup] on an object whose method returns. *)
Lemma setup_run st l o f v :
  objects st !! l = Some o →
  obj_methods o !! "add_css_file" = Some f →
  f [VStr "custom.css"] = inr v →
  setup (VRef l) st =
    (inr VNone, log (EvCall l "add_css_file" [VStr "custom.css"]) st).
Proof.
  intros Ho Hf Hv. unfold setup, bind, call_method, ret.
  by rewrite Ho, Hf, Hv.
Qed.

(** Closes a goal giving the value the script binds to a name. *)
Ltac conf_value := apply conf_lookup; vm_compute; reflexivity.

(** ** Project information *)

(** C4. After evaluation the project-information names are bound to the
    strings ['Nix Model Repo'], ['2024, Nix Model Repo Contributors'],
    ['Nix Model Repo Contributors'], ['0.1.0'] and ['0.1']. *)
Theorem project_information st :
  globals (final conf_py st) !! "project" = Some (VStr "Nix Model Repo") ∧
  globals (final conf_py st) !! "copyright" =
    Some (VStr "2024, Nix Model Repo Contributors") ∧
  globals (final conf_py st) !! "author" =
    Some (VStr "Nix Model Repo Contributors") ∧
  globals (final conf_py st) !! "release" = Some (VStr "0.1.0") ∧
  globals (final conf_py st) !! "version" = Some (VStr "0.1").
Proof. repeat split; conf_value. Qed.

(** C8. The bound [version] is an initial segment of the bound [release]:
    [release.startswith(version)] holds. *)
Theorem version_prefix_of_release st :
  ∃ v r,
    globals (final conf_py st) !! "version" = Some (VStr v) ∧
    globals (final conf_py st) !! "release" = Some (VStr r) ∧
    String.prefix v r = true.
Proof.
  exists "0.1", "0.1.0". split; [conf_value|]. split; [conf_value|]. reflexivity.
Qed.

(** ** Lists of extensions *)

(** C6. [extensions] and [myst_enable_extensions] are lists of strings with
    exactly the elements of the file, in the order of the file. *)
Theorem extension_lists st :
  globals (final conf_py st) !! "extensions" =
    Some (VList [ VStr "sphinx.ext.autodoc"; VStr "sphinx.ext.viewcode";
                  VStr "sphinx.ext.intersphinx"; VStr "sphinx.ext.todo";
                  VStr "sphinx_copybutton"; VStr "myst_parser" ]) ∧
  globals (final conf_py st) !! "myst_enable_extensions" =
    Some (VList [ VStr "colon_fence"; VStr "deflist"; VStr "fieldlist";
                  VStr "tasklist" ]).
Proof. split; conf_value. Qed.

(** ** Mappings *)

(** C5. [source_suffix] has the two entries ['.rst'] and ['.md'] and no
    other; [intersphinx_mapping] has the single entry ['python'], a pair
    of the URL and [None]; the keys of [html_theme_options] are exactly
    the four of the file, the two flags being [False] and [True]. *)
Theorem mapping_shapes st :
  globals (final conf_py st) !! "source_suffix" =
    Some (VDict {[ ".rst" := VStr "restructuredtext"; ".md" := VStr "markdown" ]}) ∧
  globals (final conf_py st) !! "intersphinx_mapping" =
    Some (VDict {[ "python" := VTuple [VStr "https://docs.python.org/3"; VNone] ]}) ∧
  ∃ opts,
    globals (final conf_py st) !! "html_theme_options" = Some (VDict opts) ∧
    dom opts = {[ "light_css_variables"; "dark_css_variables";
                  "sidebar_hide_name"; "navigation_with_keys" ]} ∧
    opts !! "sidebar_hide_name" = Some (VBool false) ∧
    opts !! "navigation_with_keys" = Some (VBool true).
Proof.
  split; [conf_value|]. split; [conf_value|].
  exists {[ "light_css_variables" :=
             VDict {[ "color-brand-primary" := VStr "#7C3AED";
                      "color-brand-content" := VStr "#7C3AED" ]};
           "dark_css_variables" :=
             VDict {[ "color-brand-primary" := VStr "#A78BFA";
                      "color-brand-content" := VStr "#A78BFA" ]};
           "sidebar_hide_name" := VBool false;
           "navigation_with_keys" := VBool true ]}.
  split; [conf_value|].
  split; [|split; reflexivity].
  rewrite !dom_insert_L, dom_singleton_L. set_solver.
Qed.

(** ** Loading *)

(** C2. Evaluating the script raises nothing, and afterwards every
    required field is bound to a value of its type: a string, a list of
    strings or a mapping. *)
Theorem conf_py_loads st :
  outcome conf_py st = inr tt ∧
  ∀ name t, (name, t) ∈ required_fields →
    ∃ v, globals (final conf_py st) !! name = Some v ∧ has_type v t = true.
Proof.
  split; [apply conf_py_outcome|].
  intros name t Hin. unfold required_fields in Hin.
  repeat (apply elem_of_cons in Hin as [[= -> ->]|Hin];
          [eexists; split; [conf_value|reflexivity]|]).
  by apply elem_of_nil in Hin.
Qed.


(** ** Single assignment *)

Lemma conf_events_names n : bound_names (conf_events n) = module_names.
Proof. reflexivity. Qed.




(** ** Frame *)

Lemma ensure_builtins_lookup_ne (g : gmap string value) name :
  name ≠ "__builtins__" → ensure_builtins g !! name = g !! name.
Proof.
  intros Hne. unfold ensure_builtins.
  destruct (g !! "__builtins__"); [done|]. by apply lookup_insert_ne.
Qed.

Lemma ensure_builtins_dom (g : gmap string value) :
  dom (ensure_builtins g) = {[ "__builtins__" ]} ∪ dom g.
Proof.
  unfold ensure_builtins. destruct (g !! "__builtins__") eqn:Hb.
  - apply elem_of_dom_2 in Hb. symmetry.
    by apply subseteq_union_1_L, singleton_subseteq_l.
  - apply dom_insert_L.
Qed.

Lemma cache_import_cached name brought (cache : gset string) :
  name ∈ cache → cache_import name brought cache = cache.
Proof. intros Hin. unfold cache_import. by rewrite decide_True. Qed.

(** The run of the file under [exec]. *)
Lemma exec_conf_py st :
  exec_ conf_py st = conf_py (set_globals ensure_builtins st).
Proof. reflexivity. Qed.

(** C10, as amended.  In an interpreter that has [os] and [sys] in its
    import cache, running the file leaves the search path, the import
    cache, the caller's objects and what loading would bring as they were;
    the events it adds are bindings of the names of the file and nothing
    else, so nothing is called; and no name of the namespace changes but
    those names and [__builtins__], which [exec] supplies. *)
Theorem conf_py_frame st :
  "os" ∈ sys_modules st → "sys" ∈ sys_modules st →
  outcome (exec_ conf_py) st = inr tt ∧
  sys_path (final (exec_ conf_py) st) = sys_path st ∧
  sys_modules (final (exec_ conf_py) st) = sys_modules st ∧
  objects (final (exec_ conf_py) st) = objects st ∧
  (∃ evs, trace (final (exec_ conf_py) st) = trace st ++ evs ∧
          forallb is_bind evs = true ∧
          bound_names evs = module_names) ∧
  ∀ name, name ∉ "__builtins__" :: module_names →
    globals (final (exec_ conf_py) st) !! name = globals st !! name.
Proof.
  intros Hos Hsys. unfold outcome, final. rewrite exec_conf_py, conf_py_run.
  cbn [fst snd set_globals globals sys_modules sys_path objects trace
       loader next_id].
  split; [reflexivity|]. split; [reflexivity|]. split.
  { rewrite (cache_import_cached "os") by done.
    by apply cache_import_cached. }
  split; [reflexivity|]. split.
  - exists (conf_events (next_id st)).
    split; [reflexivity|].
    split; [apply conf_events_binds|apply conf_events_names].
  - intros name Hnot. apply not_elem_of_cons in Hnot as [Hne Hnot].
    rewrite replay_lookup_notin by (by rewrite conf_events_names).
    by apply ensure_builtins_lookup_ne.
Qed.

Lemma conf_py_frame_witness :
  outcome (exec_ conf_py) builder_interp = inr tt ∧
  sys_path (final (exec_ conf_py) builder_interp) = sys_path builder_interp ∧
  sys_modules (final (exec_ conf_py) builder_interp) =
    sys_modules builder_interp ∧
  objects (final (exec_ conf_py) builder_interp) = objects builder_interp ∧
  (∃ evs, trace (final (exec_ conf_py) builder_interp) =
            trace builder_interp ++ evs ∧
          forallb is_bind evs = true ∧
          bound_names evs = module_names) ∧
  ∀ name, name ∉ "__builtins__" :: module_names →
    globals (final (exec_ conf_py) builder_interp) !! name =
    globals builder_interp !! name.
Proof.
  apply (conf_py_frame builder_interp);
    apply (bool_decide_unpack _); vm_compute; reflexivity.
Defined.

(** Without the two modules in the cache the frame fails: in an
    interpreter that has not loaded [os], running the file changes the
    import cache. *)
Lemma conf_py_frame_counterexample :
  sys_modules (final (exec_ conf_py) bare_interp) ≠ sys_modules bare_interp.
Proof. apply (bool_decide_unpack _). vm_compute. reflexivity. Qed.

(** What the cache holds then: the old modules, [os], and the six that
    loading [os] brings. *)
Example bare_interp_cache :
  sys_modules (final (exec_ conf_py) bare_interp) =
    {[ "sys"; "builtins"; "os" ]} ∪ os_brings.
Proof. apply (bool_decide_unpack _). vm_compute. reflexivity. Qed.

(** And [exec] has put [__builtins__] into the builder's namespace. *)
Example builder_interp_builtins :
  globals builder_interp !! "__builtins__" = None ∧
  is_Some (globals (final (exec_ conf_py) builder_interp) !! "__builtins__").
Proof. split; [reflexivity|]. eexists. vm_compute. reflexivity. Qed.

(** The name the builder puts in the namespace before it runs the script
    is still there afterwards. *)
Example conf_py_keeps_file :
  globals (final conf_py builder_interp) !! "__file__" = Some (VStr "conf.py").
Proof. vm_compute. reflexivity. Qed.

(** ** The hook *)

(** C1. Applied to an application handle, [setup] raises nothing and does
    one thing: it calls the handle's [add_css_file] with ['custom.css'].
    That call is the only event of the run, and the namespace, the import
    cache, the search path and the objects are as before. *)
Theorem setup_registers_stylesheet st app :
  is_application st app →
  ∃ l, app = VRef l ∧
    outcome (setup app) st = inr VNone ∧
    trace (final (setup app) st) =
      trace st ++ [EvCall l "add_css_file" [VStr "custom.css"]] ∧
    globals (final (setup app) st) = globals st ∧
    sys_modules (final (setup app) st) = sys_modules st ∧
    sys_path (final (setup app) st) = sys_path st ∧
    objects (final (setup app) st) = objects st.
Proof.
  intros (l & o & f & -> & Ho & Hf & Hret).
  destruct (Hret "custom.css") as [v Hv].
  exists l. split; [done|].
  unfold outcome, final. rewrite (setup_run st l o f v) by done.
  by repeat split.
Qed.

Lemma builder_interp_application : is_application builder_interp (VRef 0).
Proof.
  exists 0, sphinx_app. eexists. split; [reflexivity|].
  split; [reflexivity|]. split; [reflexivity|].
  intros fname. exists VNone. reflexivity.
Defined.

Lemma setup_registers_stylesheet_witness :
  ∃ l, VRef 0 = VRef l ∧
    outcome (setup (VRef 0)) builder_interp = inr VNone ∧
    trace (final (setup (VRef 0)) builder_interp) =
      trace builder_interp ++ [EvCall l "add_css_file" [VStr "custom.css"]] ∧
    globals (final (setup (VRef 0)) builder_interp) = globals builder_interp ∧
    sys_modules (final (setup (VRef 0)) builder_interp) = sys_modules builder_interp ∧
    sys_path (final (setup (VRef 0)) builder_interp) = sys_path builder_interp ∧
    objects (final (setup (VRef 0)) builder_interp) = objects builder_interp.
Proof.
  apply (setup_registers_stylesheet builder_interp (VRef 0)).
  apply builder_interp_application.
Defined.

(** Applied to anything that has no [add_css_file], and so to anything
    that is not an application handle, [setup] ends in [AttributeError];
    and what the method raises, [setup] raises. *)
Example setup_on_none :
  outcome (setup VNone) builder_interp = inl (AttributeError "add_css_file").
Proof. reflexivity. Qed.

Example setup_propagates :
  outcome (setup (VRef 1)) refusing_interp = inl TypeError.
Proof. reflexivity. Qed.

(** C9. Applied to an application handle, [setup] returns [None], called
    directly or through a function object the script binds, whichever
    identity that object has and whatever [add_css_file] returned. *)
Theorem setup_returns_none st app :
  is_application st app →
  outcome (setup app) st = inr VNone ∧
  ∀ i, outcome (call (VFunction i "setup" ["app"]) [app]) st = inr VNone.
Proof.
  intros (l & o & f & -> & Ho & Hf & Hret).
  destruct (Hret "custom.css") as [v Hv].
  assert (Hrun : outcome (setup (VRef l)) st = inr VNone).
  { unfold outcome. by rewrite (setup_run st l o f v). }
  split; [done|]. intros i.
  by change (call (VFunction i "setup" ["app"]) [VRef l]) with (setup (VRef l)).
Qed.

Lemma setup_returns_none_witness :
  outcome (setup (VRef 5)) chatty_interp = inr VNone ∧
  ∀ i, outcome (call (VFunction i "setup" ["app"]) [VRef 5]) chatty_interp
       = inr VNone.
Proof.
  apply (setup_returns_none chatty_interp (VRef 5)).
  exists 5, chatty_app. eexists. split; [reflexivity|].
  split; [reflexivity|]. split; [reflexivity|].
  intros fname. exists (VInt 7). reflexivity.
Defined.

(** * Further behaviour of the hook *)

(** Attribute lookup as [call_method] does it. *)
Lemma call_method_lookup st obj meth args :
  call_method obj meth args st =
    match method_of st obj meth, obj with
    | Some f, VRef l => (f args, log (EvCall l meth args) st)
    | _, _ => (inl (AttributeError meth), st)
    end.
Proof.
  unfold call_method, method_of.
  destruct obj as [| | | | | | | | |l]; try reflexivity.
  destruct (objects st !! l) as [o|]; simpl; [|reflexivity].
  by destruct (obj_methods o !! meth).
Qed.

Lemma method_of_ref st obj meth f :
  method_of st obj meth = Some f → ∃ l, obj = VRef l.
Proof. destruct obj; try done. eauto. Qed.

(** X1. Applied to a value that has no [add_css_file], [setup] raises
    [AttributeError] for that name and leaves the whole state, trace
    included, as it found it. *)
Theorem setup_missing_method st app :
  method_of st app "add_css_file" = None →
  setup app st = (inl (AttributeError "add_css_file"), st).
Proof.
  intros Hnone. unfold setup, bind. rewrite call_method_lookup, Hnone.
  reflexivity.
Qed.

Lemma setup_missing_method_witness :
  setup (VStr "app") builder_interp =
    (inl (AttributeError "add_css_file"), builder_interp).
Proof.
  apply (setup_missing_method builder_interp (VStr "app")). reflexivity.
Defined.

(** X2. When [add_css_file] raises, [setup] raises the same exception;
    the call has been made once all the same, and nothing else has
    changed. *)
Theorem setup_method_raises st app f e :
  method_of st app "add_css_file" = Some f →
  f [VStr "custom.css"] = inl e →
  ∃ l, app = VRef l ∧ setup app st = (inl e, log (css_call l) st).
Proof.
  intros Hf He. destruct (method_of_ref _ _ _ _ Hf) as [l ->].
  exists l. split; [reflexivity|].
  unfold setup, bind. rewrite call_method_lookup, Hf, He. reflexivity.
Qed.

Lemma setup_method_raises_witness :
  ∃ l, VRef 1 = VRef l ∧
    setup (VRef 1) refusing_interp = (inl TypeError, log (css_call l) refusing_interp).
Proof.
  apply (setup_method_raises refusing_interp (VRef 1) (λ _, inl TypeError) TypeError);
    reflexivity.
Defined.

(** X3. Whatever [setup] is applied to: it adds at most one event to the
    trace, and that event is the call of [add_css_file] with
    ['custom.css'] on its argument; it changes nothing else; and if it
    returns, it returns [None]. *)
Theorem setup_total_behaviour st app :
  (final (setup app) st = st ∨
   ∃ l, app = VRef l ∧ final (setup app) st = log (css_call l) st) ∧
  ∀ v, outcome (setup app) st = inr v → v = VNone.
Proof.
  unfold final, outcome, setup, bind. rewrite call_method_lookup.
  destruct (method_of st app "add_css_file") as [f|] eqn:Hf.
  - destruct (method_of_ref _ _ _ _ Hf) as [l ->].
    destruct (f [VStr "custom.css"]) as [e|v0]; simpl.
    + split; [right; eauto|]. intros v [=].
    + split; [right; eauto|]. by intros v [= <-].
  - simpl. split; [by left|]. intros v [=].
Qed.



(** Being an application handle depends on the objects only. *)
Lemma is_application_objects st st' app :
  objects st' = objects st → is_application st app → is_application st' app.
Proof.
  intros Heq (l & o & f & ? & ? & ? & ?). exists l, o, f. by rewrite Heq.
Qed.

Lemma times_setup_run k st l o f :
  objects st !! l = Some o →
  obj_methods o !! "add_css_file" = Some f →
  (∃ v, f [VStr "custom.css"] = inr v) →
  times k (setup (VRef l)) st =
    (inr (replicate k VNone),
     Interp (globals st) (sys_modules st) (sys_path st) (objects st)
            (trace st ++ replicate k (css_call l)) (loader st) (next_id st)).
Proof.
  intros Ho Hf [v Hv]. revert st Ho.
  induction k as [|k IH]; intros st Ho.
  - simpl. unfold ret. rewrite app_nil_r. by destruct st.
  - cbn [times]. unfold bind at 1. rewrite (setup_run st l o f v) by done.
    unfold bind at 1. rewrite IH by done.
    cbn [ret log globals sys_modules sys_path objects trace loader next_id
         replicate].
    by rewrite <- app_assoc.
Qed.

(** X4. The hook keeps no record of having run: called [k] times on an
    application handle it makes the call [k] times, every one of the [k]
    calls returns [None], and namespace and objects stay as they were. *)
Theorem setup_repeated k st app :
  is_application st app →
  ∃ l, app = VRef l ∧
    outcome (times k (setup app)) st = inr (replicate k VNone) ∧
    trace (final (times k (setup app)) st) =
      trace st ++ replicate k (css_call l) ∧
    globals (final (times k (setup app)) st) = globals st ∧
    objects (final (times k (setup app)) st) = objects st.
Proof.
  intros (l & o & f & -> & Ho & Hf & Hret). exists l. split; [done|].
  unfold outcome, final.
  rewrite (times_setup_run k st l o f Ho Hf (Hret "custom.css")).
  by repeat split.
Qed.

Lemma setup_repeated_witness :
  ∃ l, VRef 0 = VRef l ∧
    outcome (times 3 (setup (VRef 0))) builder_interp =
      inr (replicate 3 VNone) ∧
    trace (final (times 3 (setup (VRef 0))) builder_interp) =
      trace builder_interp ++ replicate 3 (css_call l) ∧
    globals (final (times 3 (setup (VRef 0))) builder_interp) =
      globals builder_interp ∧
    objects (final (times 3 (setup (VRef 0))) builder_interp) =
      objects builder_interp.
Proof.
  apply (setup_repeated 3 builder_interp (VRef 0)).
  apply builder_interp_application.
Defined.

(** The list [times] returns is the list of what the calls returned: a
    method that hands a value back has it dropped by [setup], while
    called by itself it shows in the list. *)
Example times_collects :
  outcome (times 2 (call_method (VRef 5) "add_css_file" [VStr "custom.css"]))
    chatty_interp = inr [VInt 7; VInt 7] ∧
  outcome (times 2 (setup (VRef 5))) chatty_interp = inr [VNone; VNone].
Proof. split; reflexivity. Qed.

(** * Further behaviour of the script *)

(** The events of the script are those of its imports and assignments,
    the same from every state, followed by the binding of the hook. *)
Lemma conf_events_split n :
  conf_events n =
    take 21 (conf_events 0) ++ [EvBind "setup" (VFunction n "setup" ["app"])].
Proof. reflexivity. Qed.

Lemma replay_snoc evs e (g : gmap string value) :
  replay (evs ++ [e]) g = apply_event (replay evs g) e.
Proof. unfold replay. by rewrite fold_left_app. Qed.

Lemma conf_namespace_settings n m name :
  name ≠ "setup" → conf_namespace n !! name = conf_namespace m !! name.
Proof.
  intros Hne. unfold conf_namespace.
  rewrite (conf_events_split n), (conf_events_split m), !replay_snoc.
  cbn [apply_event]. by rewrite !lookup_insert_ne.
Qed.

Lemma cache_import_elem name brought (cache : gset string) :
  name ∈ cache_import name brought cache.
Proof.
  unfold cache_import. destruct (decide (name ∈ cache)); [done|].
  apply elem_of_union_l, elem_of_union_l. by apply elem_of_singleton.
Qed.

Lemma cache_import_mono name brought (cache : gset string) x :
  x ∈ cache → x ∈ cache_import name brought cache.
Proof.
  intros Hx. unfold cache_import. destruct (decide (name ∈ cache)); [done|].
  by apply elem_of_union_r.
Qed.

Lemma cache_import_inv name brought (cache : gset string) x :
  x ∈ cache_import name brought cache → x ∈ cache ∨ x = name ∨ x ∈ brought.
Proof.
  unfold cache_import. destruct (decide (name ∈ cache)); [by left|].
  rewrite !elem_of_union, elem_of_singleton. tauto.
Qed.

(** The parts of the state after a run. *)
Lemma conf_py_next_id st : next_id (final conf_py st) = S (next_id st).
Proof. unfold final. rewrite conf_py_run. reflexivity. Qed.

Lemma conf_py_loader st : loader (final conf_py st) = loader st.
Proof. unfold final. rewrite conf_py_run. reflexivity. Qed.

Lemma conf_py_sys_path st : sys_path (final conf_py st) = sys_path st.
Proof. unfold final. rewrite conf_py_run. reflexivity. Qed.

Lemma conf_py_objects st : objects (final conf_py st) = objects st.
Proof. unfold final. rewrite conf_py_run. reflexivity. Qed.

Lemma conf_py_cache st :
  sys_modules (final conf_py st) =
    cache_import "sys" (loader st "sys")
      (cache_import "os" (loader st "os") (sys_modules st)).
Proof. unfold final. rewrite conf_py_run. reflexivity. Qed.

(** Running the script twice is running it in the state the first run
    left. *)
Lemma conf_py_twice st : (conf_py;; conf_py) st = conf_py (final conf_py st).
Proof.
  unfold bind, final. rewrite (conf_py_run st). reflexivity.
Qed.

Lemma conf_py_twice_final st :
  final (conf_py;; conf_py) st = final conf_py (final conf_py st).
Proof. unfold final at 1 2. by rewrite conf_py_twice. Qed.

(** X5. Evaluating the script a second time raises nothing.  Every name
    but [setup] is bound as after the first evaluation; [setup] is bound
    to a function object of the same name and parameter that is another
    object than the first.  Import cache, search path and objects are
    those of the first evaluation, and the trace has the bindings of the
    script twice. *)
Theorem conf_py_reload st :
  outcome (conf_py;; conf_py) st = inr tt ∧
  (∀ name, name ≠ "setup" →
     globals (final (conf_py;; conf_py) st) !! name =
     globals (final conf_py st) !! name) ∧
  (∃ i j, i ≠ j ∧
     globals (final conf_py st) !! "setup" =
       Some (VFunction i "setup" ["app"]) ∧
     globals (final (conf_py;; conf_py) st) !! "setup" =
       Some (VFunction j "setup" ["app"])) ∧
  sys_modules (final (conf_py;; conf_py) st) = sys_modules (final conf_py st) ∧
  sys_path (final (conf_py;; conf_py) st) = sys_path (final conf_py st) ∧
  objects (final (conf_py;; conf_py) st) = objects (final conf_py st) ∧
  trace (final (conf_py;; conf_py) st) =
    trace st ++ conf_events (next_id st) ++ conf_events (S (next_id st)).
Proof.
  rewrite !conf_py_twice_final. unfold outcome. rewrite conf_py_twice.
  fold (outcome conf_py (final conf_py st)).
  set (st1 := final conf_py st).
  assert (Hid : next_id st1 = S (next_id st)) by apply conf_py_next_id.
  split; [apply conf_py_outcome|]. split.
  { intros name Hne. rewrite (conf_py_globals st1), Hid.
    unfold st1. rewrite (conf_py_globals st), !lookup_union.
    rewrite (conf_namespace_settings (S (next_id st)) (next_id st)) by done.
    by destruct (conf_namespace (next_id st) !! name), (globals st !! name). }
  split.
  { exists (next_id st), (S (next_id st)). split; [lia|]. split.
    - unfold st1. conf_value.
    - apply conf_lookup. rewrite Hid. vm_compute. reflexivity. }
  split.
  { rewrite (conf_py_cache st1).
    assert (Hsys : "sys" ∈ sys_modules st1).
    { unfold st1. rewrite conf_py_cache. apply cache_import_elem. }
    assert (Hos : "os" ∈ sys_modules st1).
    { unfold st1. rewrite conf_py_cache.
      apply cache_import_mono, cache_import_elem. }
    rewrite (cache_import_cached "os") by done.
    by apply cache_import_cached. }
  split; [apply conf_py_sys_path|]. split; [apply conf_py_objects|].
  rewrite (conf_py_trace st1), Hid. unfold st1.
  by rewrite conf_py_trace, <- app_assoc.
Qed.

(** The run of the bound hook on an object whose method returns. *)
Lemma call_setup_run st l o f v i :
  objects st !! l = Some o →
  obj_methods o !! "add_css_file" = Some f →
  f [VStr "custom.css"] = inr v →
  call (VFunction i "setup" ["app"]) [VRef l] st =
    (inr VNone, log (css_call l) st).
Proof.
  intros Ho Hf Hv.
  change (call (VFunction i "setup" ["app"]) [VRef l]) with (setup (VRef l)).
  by apply (setup_run st l o f v).
Qed.

(** X6. The builder's way: it evaluates the script, takes what the name
    [setup] is then bound to and calls it with its application handle.
    Whatever the namespace held before, also for [setup], the call returns
    [None], the trace gains the events of the script and then the one call
    of [add_css_file], and the namespace is the one the script left. *)
Theorem load_then_setup st app :
  is_application st app →
  ∃ l hook, app = VRef l ∧
    globals (final conf_py st) !! "setup" = Some hook ∧
    outcome (call hook [app]) (final conf_py st) = inr VNone ∧
    trace (final (call hook [app]) (final conf_py st)) =
      trace st ++ conf_events (next_id st) ++ [css_call l] ∧
    globals (final (call hook [app]) (final conf_py st)) =
      globals (final conf_py st).
Proof.
  intros Happ.
  pose proof (conf_py_trace st) as Htr.
  pose proof (conf_py_objects st) as Hobj.
  assert (Hhook : globals (final conf_py st) !! "setup" =
                    Some (VFunction (next_id st) "setup" ["app"]))
    by conf_value.
  revert Htr Hobj Hhook. generalize (final conf_py st).
  intros st1 Htr Hobj Hhook.
  apply (is_application_objects st st1) in Happ; [|done].
  destruct Happ as (l & o & f & -> & Ho & Hf & Hret).
  destruct (Hret "custom.css") as [v Hv].
  exists l, (VFunction (next_id st) "setup" ["app"]).
  split; [done|]. split; [done|].
  unfold outcome, final.
  rewrite (call_setup_run st1 l o f v (next_id st)) by done.
  cbn [fst snd]. unfold log. cbn [globals trace].
  split; [reflexivity|]. split; [|reflexivity].
  rewrite Htr. by rewrite <- app_assoc.
Qed.

Lemma load_then_setup_witness :
  ∃ l hook, VRef 0 = VRef l ∧
    globals (final conf_py builder_interp) !! "setup" = Some hook ∧
    outcome (call hook [VRef 0]) (final conf_py builder_interp) = inr VNone ∧
    trace (final (call hook [VRef 0]) (final conf_py builder_interp)) =
      trace builder_interp ++ conf_events (next_id builder_interp)
        ++ [css_call l] ∧
    globals (final (call hook [VRef 0]) (final conf_py builder_interp)) =
      globals (final conf_py builder_interp).
Proof.
  apply (load_then_setup builder_interp (VRef 0)).
  apply builder_interp_application.
Defined.

(** X7. The two imports only add to the import cache: every module
    cached before is cached after, [os] and [sys] are cached after, and
    whatever else is new was brought in by loading one of the two.  The
    search path is untouched, and the two names are bound to the two
    modules. *)
Theorem conf_py_imports st :
  sys_modules st ⊆ sys_modules (final conf_py st) ∧
  "os" ∈ sys_modules (final conf_py st) ∧
  "sys" ∈ sys_modules (final conf_py st) ∧
  (∀ m, m ∈ sys_modules (final conf_py st) →
     m ∈ sys_modules st ∨ m = "os" ∨ m = "sys" ∨
     m ∈ loader st "os" ∨ m ∈ loader st "sys") ∧
  sys_path (final conf_py st) = sys_path st ∧
  globals (final conf_py st) !! "os" = Some (VModule "os") ∧
  globals (final conf_py st) !! "sys" = Some (VModule "sys").
Proof.
  split; [|split; [|split; [|split; [|split; [|split; conf_value]]]]];
    unfold final; rewrite conf_py_run; cbn [snd sys_modules sys_path].
  - intros x Hx. by apply cache_import_mono, cache_import_mono.
  - apply cache_import_mono, cache_import_elem.
  - apply cache_import_elem.
  - intros m Hm.
    apply cache_import_inv in Hm as [Hm|[->|Hm]]; [|tauto|tauto].
    apply cache_import_inv in Hm. tauto.
  - reflexivity.
Qed.

(** The names bound after replaying events are those bound before and
    those the events bind. *)
Lemma dom_replay evs (g : gmap string value) :
  dom (replay evs g) = list_to_set (bound_names evs) ∪ dom g.
Proof.
  revert g. induction evs as [|e evs IH]; intros g.
  - simpl. by rewrite (left_id_L ∅ (∪)).
  - change (replay (e :: evs) g) with (replay evs (apply_event g e)).
    rewrite IH. destruct e as [k v|]; simpl; [|done].
    rewrite dom_insert_L. apply set_eq. intros x.
    rewrite !elem_of_union. tauto.
Qed.

(** X8. Run by [exec], the file binds its twenty-two names and no other:
    the names bound afterwards are exactly these, [__builtins__], which
    [exec] supplies, and the names bound before. *)
Theorem conf_py_bound_set st :
  dom (globals (final (exec_ conf_py) st)) =
    {[ "__builtins__" ]} ∪ list_to_set module_names ∪ dom (globals st).
Proof.
  unfold final. rewrite exec_conf_py, conf_py_run.
  cbn [snd set_globals globals next_id].
  rewrite dom_replay, conf_events_names, ensure_builtins_dom.
  apply set_eq. intros x. rewrite !elem_of_union. tauto.
Qed.

(** X9. The settings no other statement above speaks of: the template
    and static directories, the patterns left out of the build, the root
    document, the theme, the two titles, and the flags of the todo and
    MyST extensions. *)
Theorem remaining_settings st :
  globals (final conf_py st) !! "templates_path" =
    Some (VList [VStr "_templates"]) ∧
  globals (final conf_py st) !! "exclude_patterns" =
    Some (VList [VStr "_build"; VStr "Thumbs.db"; VStr ".DS_Store"]) ∧
  globals (final conf_py st) !! "master_doc" = Some (VStr "index") ∧
  globals (final conf_py st) !! "html_theme" = Some (VStr "furo") ∧
  globals (final conf_py st) !! "html_static_path" =
    Some (VList [VStr "_static"]) ∧
  globals (final conf_py st) !! "html_title" = Some (VStr "Nix Model Repo") ∧
  globals (final conf_py st) !! "html_short_title" =
    Some (VStr "nix-model-repo") ∧
  globals (final conf_py st) !! "todo_include_todos" = Some (VBool true) ∧
  globals (final conf_py st) !! "myst_heading_anchors" = Some (VInt 3).
Proof. repeat split; conf_value. Qed.

(** X10. The light and the dark theme set the same two CSS variables,
    and within each theme the two have the same colour: [#7C3AED] in the
    light one, [#A78BFA] in the dark one. *)
Theorem theme_variables st :
  ∃ opts light dark,
    globals (final conf_py st) !! "html_theme_options" = Some (VDict opts) ∧
    opts !! "light_css_variables" = Some (VDict light) ∧
    opts !! "dark_css_variables" = Some (VDict dark) ∧
    dom light = {[ "color-brand-primary"; "color-brand-content" ]} ∧
    dom dark = dom light ∧
    light !! "color-brand-primary" = Some (VStr "#7C3AED") ∧
    light !! "color-brand-content" = light !! "color-brand-primary" ∧
    dark !! "color-brand-primary" = Some (VStr "#A78BFA") ∧
    dark !! "color-brand-content" = dark !! "color-brand-primary".
Proof.
  set (light := ({[ "color-brand-primary" := VStr "#7C3AED";
                    "color-brand-content" := VStr "#7C3AED" ]}
                 : gmap string value)).
  set (dark := ({[ "color-brand-primary" := VStr "#A78BFA";
                   "color-brand-content" := VStr "#A78BFA" ]}
                : gmap string value)).
  exists {[ "light_css_variables" := VDict light;
            "dark_css_variables" := VDict dark;
            "sidebar_hide_name" := VBool false;
            "navigation_with_keys" := VBool true ]}, light, dark.
  split; [conf_value|].
  split; [reflexivity|]. split; [reflexivity|].
  assert (Hdom : ∀ a b : value,
            dom ({[ "color-brand-primary" := a; "color-brand-content" := b ]}
                 : gmap string value)
            = {[ "color-brand-primary"; "color-brand-content" ]}).
  { intros a b. by rewrite dom_insert_L, dom_singleton_L. }
  split; [apply Hdom|]. split; [unfold light, dark; by rewrite !Hdom|].
  repeat split; reflexivity.
Qed.

(** X11. Each extension the file sets options for is switched on: the
    list of extensions names no extension twice and holds the
    intersphinx, todo and MyST extensions, whose options are bound. *)
Theorem extension_options_enabled st :
  ∃ exts,
    globals (final conf_py st) !! "extensions" = Some (VList (VStr <$> exts)) ∧
    NoDup exts ∧
    "sphinx.ext.intersphinx" ∈ exts ∧
    is_Some (globals (final conf_py st) !! "intersphinx_mapping") ∧
    "sphinx.ext.todo" ∈ exts ∧
    globals (final conf_py st) !! "todo_include_todos" = Some (VBool true) ∧
    "myst_parser" ∈ exts ∧
    is_Some (globals (final conf_py st) !! "myst_enable_extensions") ∧
    is_Some (globals (final conf_py st) !! "myst_heading_anchors").
Proof.
  exists [ "sphinx.ext.autodoc"; "sphinx.ext.viewcode";
           "sphinx.ext.intersphinx"; "sphinx.ext.todo";
           "sphinx_copybutton"; "myst_parser" ].
  split; [conf_value|].
  split; [apply (bool_decide_unpack _); vm_compute; reflexivity|].
  split; [apply (bool_decide_unpack _); vm_compute; reflexivity|].
  split; [eexists; conf_value|].
  split; [apply (bool_decide_unpack _); vm_compute; reflexivity|].
  split; [conf_value|].
  split; [apply (bool_decide_unpack _); vm_compute; reflexivity|].
  split; eexists; conf_value.
Qed.
